(** * qutebrowser.utils.earlyinit: the early start-up checks

    A shallow embedding of [qutebrowser/utils/earlyinit.py] and the
    properties of its five steps: [check_python_version],
    [init_faulthandler], [fix_harfbuzz], [check_pyqt_core] and
    [check_pyqt_webkit].

    The Python functions read the interpreter's [sys] attributes (a [Host])
    and act on the process: they print, assign to [os.environ], call into
    [faulthandler] and PyQt5, leave through [sys.exit] or through an
    exception nobody catches.  The process is a [World] (the environment
    table and the chronological list of calls made so far) and a function is
    a [World] transformer that also says how it ended. *)

From Stdlib Require Import ZArith String Ascii List Lia DecimalString.
From stdpp Require Import base gmap strings list.

Open Scope Z_scope.

(** ** Python strings *)

Module Py.

Definition nl_char : ascii := ascii_of_nat 10.
Definition nl : string := String nl_char EmptyString.

(** [str(n)] for an integer. *)
Definition str (n : Z) : string := NilZero.string_of_int (Z.to_int n).

(** [sep.join(l)]. *)
Definition join (sep : string) (l : list string) : string := String.concat sep l.

(** [s.startswith(p)]. *)
Definition startswith (s p : string) : bool := String.prefix p s.

(** [sub in s] on strings. *)
Fixpoint contains (sub s : string) : bool :=
  String.prefix sub s ||
  match s with
  | EmptyString => false
  | String _ s' => contains sub s'
  end.

(** [x in l] on a list of strings, the test behind ['--debug' in sys.argv]. *)
Definition mem (x : string) (l : list string) : bool :=
  existsb (String.eqb x) l.

(** [tpl.format(arg)] for a template with one [{}] field. *)
Fixpoint format1 (tpl arg : string) : string :=
  match tpl with
  | String "{"%char (String "}"%char rest) => arg +:+ rest
  | String c rest => String c (format1 rest arg)
  | EmptyString => EmptyString
  end.

(** ASCII characters that [str.strip()] removes. *)
Definition isspace (c : ascii) : bool :=
  let n := nat_of_ascii c in
  ((9 <=? n) && (n <=? 13) || (28 <=? n) && (n <=? 32))%nat.

Fixpoint lstrip (s : string) : string :=
  match s with
  | String c s' => if isspace c then lstrip s' else s
  | EmptyString => EmptyString
  end.

Fixpoint rstrip (s : string) : string :=
  match s with
  | String c s' =>
      match rstrip s' with
      | EmptyString => if isspace c then EmptyString else String c EmptyString
      | r => String c r
      end
  | EmptyString => EmptyString
  end.

(** [s.strip()]. *)
Definition strip (s : string) : string := rstrip (lstrip s).

(** [s.split('\n')]: the lines of a text. *)
Fixpoint split_nl (s : string) : list string :=
  match s with
  | EmptyString => [EmptyString]
  | String c s' =>
      if Ascii.eqb c nl_char then EmptyString :: split_nl s'
      else match split_nl s' with
           | l :: ls => String c l :: ls
           | [] => [String c EmptyString]
           end
  end.

(** *** [textwrap.dedent]

    The standard library's function (Python 3.3), line by line: lines of
    blanks and tabs only are emptied, the margin is the leading white space
    common to the other lines, and it is removed from each of them. *)

Definition is_blank (c : ascii) : bool :=
  Ascii.eqb c " "%char || Ascii.eqb c (ascii_of_nat 9).

Fixpoint all_blank (s : string) : bool :=
  match s with
  | EmptyString => true
  | String c s' => is_blank c && all_blank s'
  end.

Fixpoint leading_blank (s : string) : string :=
  match s with
  | String c s' => if is_blank c then String c (leading_blank s') else EmptyString
  | EmptyString => EmptyString
  end.

Fixpoint drop_prefix (p s : string) : string :=
  match p, s with
  | String a p', String b s' => if Ascii.eqb a b then drop_prefix p' s' else s
  | _, _ => s
  end.

(** The loop over the indents; [None] is Python's [margin is None]. *)
Fixpoint margin_loop (margin : option string) (indents : list string) : option string :=
  match indents with
  | [] => margin
  | indent :: rest =>
      match margin with
      | None => margin_loop (Some indent) rest
      | Some m =>
          if startswith indent m then margin_loop margin rest
          else if startswith m indent then margin_loop (Some indent) rest
          else Some EmptyString
      end
  end.

Definition dedent (text : string) : string :=
  let ls := map (fun l => if all_blank l then EmptyString else l) (split_nl text) in
  let indents := map leading_blank (filter (fun l => negb (String.eqb l EmptyString)) ls) in
  match margin_loop None indents with
  | None | Some EmptyString => join nl ls
  | Some m =>
      join nl (map (fun l => if startswith l m then drop_prefix m l else l) ls)
  end.

End Py.

(** ** The interpreter and the process *)

(** [sys.version_info]: [(major, minor, micro, releaselevel, serial)]. *)
Record version_info_t := {
  major : Z;
  minor : Z;
  micro : Z;
  releaselevel : string;
  serial : Z
}.

(** What can be bound to [sys.stderr]. *)
Inductive stream := Console.

(** The exceptions of this module.  An [ImportError] carries what the
    interpreter prints for it: the frame lines of its traceback and its
    last line, the class name ([ImportError], or its subclass
    [ModuleNotFoundError] on later interpreters) with the message.
    [NoStderrError] is the one [faulthandler.enable()] raises without a
    [sys.stderr] (lines 50-53 of the source); [ValueError] and
    [AttributeError] are those of [str.format] on interpreters that do not
    know the [{}] field or the method. *)
Inductive exception :=
| ImportError (frames line : string)
| NoStderrError
| ValueError
| AttributeError.

(** What [str.format] does with a [{}] field.  The method is new in
    Python 2.6; fields without a number are accepted from 2.7 and from 3.1
    on, and are a [ValueError] on 2.6 and 3.0. *)
Inductive format_support := NoFormat | Numbered | AutoNumbered.

(** What the functions read and never change. *)
Record Host := {
  hexversion : Z;                            (* sys.hexversion *)
  version_info : version_info_t;             (* sys.version_info *)
  platform : string;                         (* sys.platform *)
  argv : list string;                        (* sys.argv *)
  stderr : option stream;                    (* sys.stderr, None under pythonw.exe *)
  has_SIGUSR1 : bool;                        (* signal.SIGUSR1 exists *)
  has_register : bool;                       (* hasattr(faulthandler, 'register') *)
  missing : gmap string (string * string)    (* third-party modules whose import
                                                fails: frames and last line *)
}.

Inductive signal_t := SIGUSR1.

(** [QMessageBox.Icon]. *)
Inductive Icon := NoIcon | Information | Warning | Critical | Question.

(** The calls that leave the module, in the order they are made. *)
Inductive event :=
| Print (s : string)                         (* print(s): s and a newline on sys.stdout *)
| PrintExc (e : exception)                   (* traceback.print_exc() handling e *)
| FaulthandlerEnable                         (* faulthandler.enable() *)
| FaulthandlerRegister (sig : signal_t)      (* faulthandler.register(sig) *)
| NewQApplication (args : list string)       (* QApplication(args) *)
| NewQMessageBox (ic : Icon) (title text : string)
| MsgboxResizeSizeHint                       (* msgbox.resize(msgbox.sizeHint()) *)
| MsgboxExec                                 (* msgbox.exec_() *)
| AppQuit.                                   (* app.quit() *)

Record World := {
  environ : gmap string string;              (* os.environ *)
  trace : list event
}.

(** How a call ends: it returns, the process leaves through
    [sys.exit(code)], or an exception propagates. *)
Inductive result (A : Type) :=
| Ok (a : A)
| Exit (code : Z)
| Raise (e : exception).
Arguments Ok {A} a.
Arguments Exit {A} code.
Arguments Raise {A} e.

Definition M (A : Type) : Type := World -> result A * World.

Definition ret {A} (a : A) : M A := fun w => (Ok a, w).

Definition bind {A B} (m : M A) (k : A -> M B) : M B :=
  fun w =>
    match m w with
    | (Ok a, w') => k a w'
    | (Exit c, w') => (Exit c, w')
    | (Raise e, w') => (Raise e, w')
    end.

Declare Scope py_scope.
Delimit Scope py_scope with py.
Notation "m1 ;; m2" := (bind m1 (fun _ => m2))
  (at level 100, m2 at level 200, right associativity) : py_scope.
Open Scope py_scope.

Definition sys_exit {A} (code : Z) : M A := fun w => (Exit code, w).

Definition raise {A} (e : exception) : M A := fun w => (Raise e, w).

Definition emit (e : event) : M unit :=
  fun w => (Ok tt, {| environ := environ w; trace := trace w ++ [e] |}).

(** [print(s)]. *)
Definition print (s : string) : M unit := emit (Print s).

(** [os.environ[k] = v]. *)
Definition setenv (k v : string) : M unit :=
  fun w => (Ok tt, {| environ := <[k := v]> (environ w); trace := trace w |}).

(** [import name] for a module that may be absent. *)
Definition import_module (h : Host) (name : string) : M unit :=
  match missing h !! name with
  | Some (frames, msg) => raise (ImportError frames msg)
  | None => ret tt
  end.

(** [try: body except ImportError: handler]; the handler gets the
    exception being handled, which [traceback.print_exc()] prints. *)
Definition try_except_ImportError {A} (body : M A) (handler : exception -> M A) : M A :=
  fun w =>
    match body w with
    | (Raise (ImportError frames msg), w') => handler (ImportError frames msg) w'
    | r => r
    end.

(** The text the [print] calls of a trace wrote on standard output. *)
Fixpoint stdout_of (t : list event) : string :=
  match t with
  | [] => EmptyString
  | Print s :: t' => s +:+ Py.nl +:+ stdout_of t'
  | _ :: t' => stdout_of t'
  end.

(** The text [traceback.print_exc()] writes for an exception. *)
Definition traceback_header : string := "Traceback (most recent call last):".

Definition exc_frames (e : exception) : string :=
  match e with
  | ImportError frames _ => frames
  | _ => EmptyString
  end.

Definition exc_line (e : exception) : string :=
  match e with
  | ImportError _ line => line
  | NoStderrError => "RuntimeError: sys.stderr is None"
  | ValueError => "ValueError: zero length field name in format"
  | AttributeError => "AttributeError: 'str' object has no attribute 'format'"
  end.

Definition format_exc (e : exception) : string :=
  traceback_header +:+ Py.nl +:+ exc_frames e +:+ exc_line e +:+ Py.nl.

(** Where the text of [traceback.print_exc()] goes.  The function is
    called without a [file]: it takes [sys.stderr] and hands each line to
    [print(line, file=file)], and [print] with [file=None] writes on
    [sys.stdout].  So the traceback is on standard error when there is
    such a stream, and on standard output when [sys.stderr] is [None]. *)
Fixpoint stdout_text (h : Host) (t : list event) : string :=
  match t with
  | [] => EmptyString
  | Print s :: t' => s +:+ Py.nl +:+ stdout_text h t'
  | PrintExc e :: t' =>
      match stderr h with
      | None => format_exc e +:+ stdout_text h t'
      | Some _ => stdout_text h t'
      end
  | _ :: t' => stdout_text h t'
  end.

Fixpoint stderr_text (h : Host) (t : list event) : string :=
  match t with
  | [] => EmptyString
  | PrintExc e :: t' =>
      match stderr h with
      | None => stderr_text h t'
      | Some _ => format_exc e +:+ stderr_text h t'
      end
  | _ :: t' => stderr_text h t'
  end.

Definition is_print (e : event) : bool :=
  match e with
  | Print _ => true
  | _ => false
  end.


(** ** The five steps, in the order of the file *)

(** Which [str.format] the running interpreter has. *)
Definition str_format_support (v : version_info_t) : format_support :=
  if (major v <? 2) || ((major v =? 2) && (minor v <? 6)) then NoFormat
  else if ((major v =? 2) && (minor v <? 7)) || ((major v =? 3) && (minor v <? 1))
       then Numbered
  else AutoNumbered.

(** [tpl.format(arg)] for a template whose one field is [{}], on the
    running interpreter. *)
Definition str_format (h : Host) (tpl arg : string) : M string :=
  match str_format_support (version_info h) with
  | NoFormat => raise AttributeError
  | Numbered => raise ValueError
  | AutoNumbered => ret (Py.format1 tpl arg)
  end.

(** Lines 30-36.  The argument of [print] is evaluated first. *)
Definition check_python_version (h : Host) : M unit :=
  if hexversion h <? 0x03030000 then
    bind (str_format h
            ("Fatal error: At least Python 3.3 is required to run " +:+
             "qutebrowser, but {} is installed!")
            (Py.join "."
               (map Py.str [major (version_info h); minor (version_info h);
                            micro (version_info h)])))
         (fun text => print text ;; sys_exit 1)
  else ret tt.

(** [from signal import SIGUSR1]: the name is missing where the platform
    has no such signal. *)
Definition import_SIGUSR1 (h : Host) : M signal_t :=
  if has_SIGUSR1 h then ret SIGUSR1
  else raise (ImportError EmptyString "ImportError: cannot import name SIGUSR1").

(** [faulthandler.enable()] writes to [sys.stderr]; the comment of lines
    50-53 records that it raises when there is none. *)
Definition faulthandler_enable (h : Host) : M unit :=
  emit FaulthandlerEnable ;;
  match stderr h with
  | None => raise NoStderrError
  | Some _ => ret tt
  end.

(** Lines 42-62.  The test of line 49 is [sys.stderr is not None]. *)
Definition init_faulthandler (h : Host) : M unit :=
  bind (import_SIGUSR1 h) (fun sig =>
    match stderr h with
    | Some _ => ret tt
    | None =>
        faulthandler_enable h ;;
        if has_register h then emit (FaulthandlerRegister sig) else ret tt
    end).

(** Lines 67-77. *)
Definition fix_harfbuzz (h : Host) : M unit :=
  if Py.startswith (platform h) "linux" then setenv "QT_HARFBUZZ" "old"
  else ret tt.

(** [traceback.print_exc()] inside the handler of [e].  The call is
    recorded; [stdout_text] and [stderr_text] say which stream gets its
    text, according to [sys.stderr]. *)
Definition print_exc (e : exception) : M unit := emit (PrintExc e).

(** The [if '--debug' in sys.argv:] block both gates share. *)
Definition debug_block (h : Host) (e : exception) : M unit :=
  if Py.mem "--debug" (argv h) then print EmptyString ;; print_exc e
  else ret tt.

(** The literal of lines 91-110, as written. *)
Definition core_literal : string :=
  Py.join Py.nl
    [ EmptyString;
      "            Fatal error: PyQt5 is required to run qutebrowser but could not";
      "            be imported! Maybe it's not installed?";
      EmptyString;
      "            On Debian:";
      "                apt-get install python3-pyqt5 python3-pyqt5.qtwebkit";
      EmptyString;
      "            On Archlinux:";
      "                pacman -S python-pyqt5 qt5-webkit";
      "                or install the qutebrowser package from AUR";
      EmptyString;
      "            On Windows:";
      "                Use the installer by Riverbank computing or the standalone";
      "                qutebrowser exe.";
      EmptyString;
      "                http://www.riverbankcomputing.co.uk/software/pyqt/download5";
      EmptyString;
      "            For other distributions:";
      "                Check your package manager for similiarly named packages.";
      "            " ].

Definition core_message : string := Py.strip (Py.dedent core_literal).

(** Lines 84-114. *)
Definition check_pyqt_core (h : Host) : M unit :=
  try_except_ImportError (import_module h "PyQt5.QtCore")
    (fun e =>
       print core_message ;;
       debug_block h e ;;
       sys_exit 1).

(** The literal of lines 129-141, as written. *)
Definition webkit_literal : string :=
  Py.join Py.nl
    [ EmptyString;
      "            Fatal error: QtWebKit is required to run qutebrowser but could not";
      "            be imported! Maybe it's not installed?";
      EmptyString;
      "            On Debian:";
      "                apt-get install python3-pyqt5.qtwebkit";
      EmptyString;
      "            On Archlinux:";
      "                pacman -S qt5-webkit";
      EmptyString;
      "            For other distributions:";
      "                Check your package manager for similiarly named packages.";
      "            " ].

Definition webkit_message : string := Py.strip (Py.dedent webkit_literal).

(** Lines 119-147.  The handler ends with [app.quit()], the last line of
    the file. *)
Definition check_pyqt_webkit (h : Host) : M unit :=
  import_module h "PyQt5.QtWidgets" ;;
  try_except_ImportError (import_module h "PyQt5.QtWebKit")
    (fun e =>
       emit (NewQApplication (argv h)) ;;
       emit (NewQMessageBox Critical "qutebrowser: Fatal error!" webkit_message) ;;
       debug_block h e ;;
       emit MsgboxResizeSizeHint ;;
       emit MsgboxExec ;;
       emit AppQuit).

(** [sys.hexversion] as CPython packs it from [sys.version_info]. *)
Definition level_code (l : string) : Z :=
  if String.eqb l "alpha" then 0xA
  else if String.eqb l "beta" then 0xB
  else if String.eqb l "candidate" then 0xC
  else 0xF.

Definition hexversion_of (v : version_info_t) : Z :=
  Z.lor (Z.shiftl (major v) 24)
    (Z.lor (Z.shiftl (minor v) 16)
       (Z.lor (Z.shiftl (micro v) 8)
          (Z.lor (Z.shiftl (level_code (releaselevel v)) 4) (serial v)))).

Definition is_byte (z : Z) : Prop := 0 <= z < 256.
Definition is_nibble (z : Z) : Prop := 0 <= z < 16.

(** ** Hosts and worlds used as concrete inputs *)

Definition world0 : World := {| environ := ∅; trace := [] |}.

Definition v_3_2_0 : version_info_t :=
  {| major := 3; minor := 2; micro := 0; releaselevel := "final"; serial := 0 |}.

Definition v_3_4_1 : version_info_t :=
  {| major := 3; minor := 4; micro := 1; releaselevel := "final"; serial := 0 |}.

Definition mk_host (v : version_info_t) (plat : string) (args : list string)
    (err : option stream) (gone : gmap string (string * string)) : Host :=
  {| hexversion := hexversion_of v; version_info := v; platform := plat;
     argv := args; stderr := err; has_SIGUSR1 := true; has_register := true;
     missing := gone |}.

Definition no_module (name : string) : string * string :=
  ("  File earlyinit.py, in <module>" +:+ Py.nl,
   "ImportError: No module named " +:+ name).

(** Python 3.2.0 on a console. *)
Definition host_py32 : Host :=
  mk_host v_3_2_0 "linux" ["qutebrowser"] (Some Console) ∅.

(** Python 3.4.1 on Linux with everything installed. *)
Definition host_ok : Host :=
  mk_host v_3_4_1 "linux" ["qutebrowser"] (Some Console) ∅.

(** The same started with file descriptor 2 closed: [sys.stderr] is [None]. *)
Definition host_no_stderr : Host :=
  mk_host v_3_4_1 "linux" ["qutebrowser"] None ∅.

(** PyQt5 is not installed; started with [--debug]. *)
Definition host_no_core : Host :=
  mk_host v_3_4_1 "linux" ["qutebrowser"; "--debug"] (Some Console)
    {[ "PyQt5.QtCore" := no_module "PyQt5";
       "PyQt5.QtWidgets" := no_module "PyQt5";
       "PyQt5.QtWebKit" := no_module "PyQt5" ]}.

(** PyQt5 is installed without its QtWebKit module. *)
Definition host_no_webkit : Host :=
  mk_host v_3_4_1 "linux" ["qutebrowser"] (Some Console)
    {[ "PyQt5.QtWebKit" := no_module "PyQt5.QtWebKit" ]}.


(** As [host_no_webkit], started with [--debug]. *)
Definition host_no_webkit_debug : Host :=
  mk_host v_3_4_1 "linux" ["qutebrowser"; "--debug"] (Some Console)
    {[ "PyQt5.QtWebKit" := no_module "PyQt5.QtWebKit" ]}.

(** An environment where [QT_HARFBUZZ] already has another value. *)
Definition world_new_harfbuzz : World :=
  {| environ := {[ "QT_HARFBUZZ" := "new"; "HOME" := "/root" ]}; trace := [] |}.

(** Python 3.4.1 on Windows. *)
Definition host_win32 : Host :=
  {| hexversion := hexversion_of v_3_4_1; version_info := v_3_4_1;
     platform := "win32"; argv := ["qutebrowser.exe"]; stderr := Some Console;
     has_SIGUSR1 := false; has_register := false; missing := ∅ |}.


(** Python 3.3.0a1, the first pre-release of 3.3. *)
Definition v_3_3_0a1 : version_info_t :=
  {| major := 3; minor := 3; micro := 0; releaselevel := "alpha"; serial := 1 |}.

Definition host_py33a1 : Host :=
  mk_host v_3_3_0a1 "linux" ["qutebrowser"] (Some Console) ∅.

(** PyQt5 is installed without QtWidgets and QtWebKit; started with
    [--debug]. *)
Definition host_no_widgets : Host :=
  mk_host v_3_4_1 "linux" ["qutebrowser"; "--debug"] (Some Console)
    {[ "PyQt5.QtWidgets" := no_module "PyQt5.QtWidgets";
       "PyQt5.QtWebKit" := no_module "PyQt5.QtWebKit" ]}.

(** A platform whose name is shorter than [linux]. *)
Definition host_aix : Host :=
  mk_host v_3_4_1 "aix" ["qutebrowser"] (Some Console) ∅.

(** Python 2.6.9 and 3.0.1: [str.format] is there, [{}] is not. *)
Definition v_2_6_9 : version_info_t :=
  {| major := 2; minor := 6; micro := 9; releaselevel := "final"; serial := 0 |}.

Definition v_3_0_1 : version_info_t :=
  {| major := 3; minor := 0; micro := 1; releaselevel := "final"; serial := 0 |}.

Definition host_py26 : Host :=
  mk_host v_2_6_9 "linux2" ["qutebrowser"] (Some Console) ∅.

Definition host_py30 : Host :=
  mk_host v_3_0_1 "linux2" ["qutebrowser"] (Some Console) ∅.



(** The calls a step made when started in [w]. *)
Definition emitted {A} (m : M A) (w : World) : list event :=
  drop (length (trace w)) (trace (snd (m w))).

(** Unfolds the plumbing of [M] in a goal. *)
Ltac run :=
  unfold bind, try_except_ImportError, import_module, debug_block, print_exc,
    str_format, print, emit, setenv, sys_exit, raise, ret; simpl.

(** ** Facts about the string functions *)

Lemma append_cons (c : ascii) (a b : string) :
  String c a +:+ b = String c (a +:+ b).
Proof. reflexivity. Qed.



Lemma append_assoc (a b c : string) : (a +:+ b) +:+ c = a +:+ (b +:+ c).
Proof.
  induction a as [|x a IH]; [reflexivity|].
  rewrite !append_cons, IH. reflexivity.
Qed.

Lemma startswith_spec (s p : string) :
  Py.startswith s p = true <-> exists rest, s = p +:+ rest.
Proof.
  unfold Py.startswith. revert s.
  induction p as [|a p IH]; intros s.
  - destruct s; simpl; split; eauto.
  - destruct s as [|b s]; simpl.
    + split; [discriminate | intros [rest H]; discriminate].
    + destruct (ascii_dec a b) as [->|Hne].
      * rewrite (IH s).
        split; intros [rest H]; exists rest;
          rewrite append_cons in *; congruence.
      * split; [discriminate|].
        intros [rest H]. rewrite append_cons in H. congruence.
Qed.


Lemma stdout_of_app (t1 t2 : list event) :
  stdout_of (t1 ++ t2) = stdout_of t1 +:+ stdout_of t2.
Proof.
  induction t1 as [|e t1 IH]; simpl; [reflexivity|].
  destruct e; try assumption.
  rewrite IH, !append_assoc. reflexivity.
Qed.

(** For a trace of [print] calls only, [stdout_of] is all of standard
    output and standard error gets nothing. *)
Lemma stdout_text_prints (h : Host) (t : list event) :
  forallb is_print t = true ->
  stdout_text h t = stdout_of t /\ stderr_text h t = EmptyString.
Proof.
  induction t as [|e t IH]; simpl; [split; reflexivity|].
  destruct e; simpl; try discriminate.
  intros Ht. destruct (IH Ht) as [-> ->]. split; reflexivity.
Qed.

(** With a standard-error stream, [stdout_of] is all of standard output. *)
Lemma stdout_text_with_stderr (h : Host) (t : list event) (s : stream) :
  stderr h = Some s -> stdout_text h t = stdout_of t.
Proof.
  intros Herr. induction t as [|e t IH]; simpl; [reflexivity|].
  destruct e; rewrite ?Herr, ?IH; reflexivity.
Qed.

Lemma contains_unfold (sub s : string) :
  Py.contains sub s =
  String.prefix sub s ||
  match s with
  | EmptyString => false
  | String _ s' => Py.contains sub s'
  end.
Proof. destruct s; reflexivity. Qed.

Lemma contains_prefix (sub rest : string) : Py.contains sub (sub +:+ rest) = true.
Proof.
  rewrite contains_unfold.
  assert (H : String.prefix sub (sub +:+ rest) = true)
    by (apply (startswith_spec (sub +:+ rest) sub); now exists rest).
  rewrite H. reflexivity.
Qed.

Lemma contains_app_r (sub a b : string) :
  Py.contains sub b = true -> Py.contains sub (a +:+ b) = true.
Proof.
  intros H. induction a as [|c a IH]; [assumption|].
  rewrite append_cons, contains_unfold, IH. apply orb_true_r.
Qed.


(** The two messages, after [dedent] and [strip]. *)
Lemma core_message_eq :
  core_message =
  Py.join Py.nl
    [ "Fatal error: PyQt5 is required to run qutebrowser but could not";
      "be imported! Maybe it's not installed?";
      EmptyString;
      "On Debian:";
      "    apt-get install python3-pyqt5 python3-pyqt5.qtwebkit";
      EmptyString;
      "On Archlinux:";
      "    pacman -S python-pyqt5 qt5-webkit";
      "    or install the qutebrowser package from AUR";
      EmptyString;
      "On Windows:";
      "    Use the installer by Riverbank computing or the standalone";
      "    qutebrowser exe.";
      EmptyString;
      "    http://www.riverbankcomputing.co.uk/software/pyqt/download5";
      EmptyString;
      "For other distributions:";
      "    Check your package manager for similiarly named packages." ].
Proof. vm_compute. reflexivity. Qed.

Lemma webkit_message_eq :
  webkit_message =
  Py.join Py.nl
    [ "Fatal error: QtWebKit is required to run qutebrowser but could not";
      "be imported! Maybe it's not installed?";
      EmptyString;
      "On Debian:";
      "    apt-get install python3-pyqt5.qtwebkit";
      EmptyString;
      "On Archlinux:";
      "    pacman -S qt5-webkit";
      EmptyString;
      "For other distributions:";
      "    Check your package manager for similiarly named packages." ].
Proof. vm_compute. reflexivity. Qed.

(** ** The version number *)

Lemma lor_shiftl_low (a b n : Z) :
  0 <= n -> 0 <= b < 2 ^ n -> Z.lor (Z.shiftl a n) b = a * 2 ^ n + b.
Proof.
  intros Hn Hb. rewrite <- Z.shiftl_mul_pow2 by assumption.
  symmetry. apply Z.add_nocarry_lor. apply Z.bits_inj'. intros i Hi.
  rewrite Z.land_spec, Z.bits_0.
  destruct (Z.lt_ge_cases i n) as [Hlt|Hge].
  - rewrite Z.shiftl_spec_low by assumption. reflexivity.
  - destruct (Z.eq_dec b 0) as [->|Hb0].
    + rewrite Z.bits_0. apply andb_false_r.
    + rewrite (Z.bits_above_log2 b i); [apply andb_false_r | lia |].
      apply Z.lt_le_trans with n; [|assumption].
      apply Z.log2_lt_pow2; lia.
Qed.

Lemma level_code_nibble (l : string) : is_nibble (level_code l).
Proof.
  unfold is_nibble, level_code.
  repeat match goal with |- context [if ?b then _ else _] => destruct b end; lia.
Qed.

Lemma hexversion_of_sum (v : version_info_t) :
  is_byte (minor v) -> is_byte (micro v) -> is_nibble (serial v) ->
  hexversion_of v =
  major v * 2 ^ 24 + minor v * 2 ^ 16 + micro v * 2 ^ 8 +
  level_code (releaselevel v) * 2 ^ 4 + serial v.
Proof.
  unfold is_byte, is_nibble, hexversion_of. intros Hm Hu Hs.
  pose proof (level_code_nibble (releaselevel v)) as Hl. unfold is_nibble in Hl.
  rewrite (lor_shiftl_low _ (serial v) 4) by lia.
  rewrite (lor_shiftl_low (micro v) _ 8) by lia.
  rewrite (lor_shiftl_low (minor v) _ 16) by lia.
  rewrite (lor_shiftl_low (major v) _ 24) by lia.
  lia.
Qed.

(** The threshold of line 32 is version 3.3: a version is below it exactly
    when its [(major, minor)] is below [(3, 3)]. *)
Lemma hexversion_of_below_minimum (v : version_info_t) :
  is_byte (minor v) -> is_byte (micro v) -> is_nibble (serial v) ->
  hexversion_of v < 0x03030000 <->
  major v < 3 \/ (major v = 3 /\ minor v < 3).
Proof.
  intros Hm Hu Hs. rewrite hexversion_of_sum by assumption.
  pose proof (level_code_nibble (releaselevel v)) as Hl.
  unfold is_byte, is_nibble in *. lia.
Qed.

(** ** Running a step *)

Lemma emitted_app {A} (m : M A) (w : World) (new : list event) :
  trace (snd (m w)) = trace w ++ new -> emitted m w = new.
Proof. intros H. unfold emitted. rewrite H. apply drop_app_length. Qed.

(** ** The version gate *)

Lemma check_python_version_low (h : Host) (w : World) :
  hexversion h < 0x03030000 ->
  str_format_support (version_info h) = AutoNumbered ->
  check_python_version h w =
    (Exit 1,
     {| environ := environ w;
        trace := trace w ++
          [Print ("Fatal error: At least Python 3.3 is required to run qutebrowser, but "
                  +:+ Py.join "." (map Py.str [major (version_info h);
                                               minor (version_info h);
                                               micro (version_info h)])
                  +:+ " is installed!")] |}).
Proof.
  intros Hv Hf. unfold check_python_version.
  apply Z.ltb_lt in Hv. rewrite Hv. run. rewrite Hf. reflexivity.
Qed.

(** Below the minimum, on an interpreter without the [{}] field, the
    format raises before anything is printed. *)
Lemma check_python_version_low_raises (h : Host) (w : World) :
  hexversion h < 0x03030000 ->
  str_format_support (version_info h) <> AutoNumbered ->
  check_python_version h w =
    (Raise (match str_format_support (version_info h) with
            | NoFormat => AttributeError
            | _ => ValueError
            end), w).
Proof.
  intros Hv Hf. unfold check_python_version.
  apply Z.ltb_lt in Hv. rewrite Hv. run.
  destruct (str_format_support (version_info h)); [reflexivity .. | contradiction].
Qed.

Lemma check_python_version_high (h : Host) (w : World) :
  0x03030000 <= hexversion h -> check_python_version h w = (Ok tt, w).
Proof.
  intros Hv. unfold check_python_version.
  apply Z.ltb_ge in Hv. rewrite Hv. reflexivity.
Qed.

Lemma check_python_version_low_not_ok (h : Host) (w : World) :
  hexversion h < 0x03030000 -> fst (check_python_version h w) <> Ok tt.
Proof.
  intros Hv. unfold check_python_version.
  apply Z.ltb_lt in Hv. rewrite Hv. run.
  destruct (str_format_support (version_info h)); discriminate.
Qed.

Lemma str_format_support_3_2 (v : version_info_t) :
  major v = 3 -> minor v = 2 -> str_format_support v = AutoNumbered.
Proof. intros Hma Hmi. unfold str_format_support. rewrite Hma, Hmi. reflexivity. Qed.

(** C5 does not hold of the code: Python 2.6.9 and 3.0.1 are below the
    minimum, and on them the version gate prints no message and does not
    reach [sys.exit(1)]: [str.format] rejects the [{}] field with a
    [ValueError] that nobody catches. *)
Theorem check_python_version_raises_on_2_6_and_3_0 :
  hexversion host_py26 < 0x03030000 /\
  check_python_version host_py26 world0 = (Raise ValueError, world0) /\
  hexversion host_py30 < 0x03030000 /\
  check_python_version host_py30 world0 = (Raise ValueError, world0).
Proof. repeat split. Qed.

(** C7 as stated fails: on Python 3.2.0 the output names the minimum as
    [3.3]; the text [3.3.0] is not in it. *)
Lemma scenario_a_output_lacks_3_3_0 :
  ~ (Py.contains "3.2.0"
       (stdout_of (trace (snd (check_python_version host_py32 world0)))) = true /\
     Py.contains "3.3.0"
       (stdout_of (trace (snd (check_python_version host_py32 world0)))) = true /\
     fst (check_python_version host_py32 world0) = Exit 1).
Proof. vm_compute. intros (_ & H & _). discriminate H. Qed.

(** C7, amended: when the runtime version is 3.2.0, the version gate writes
    one line on standard output, which contains [3.2.0] and names the
    minimum as [3.3] (not [3.3.0]), and the process leaves with exit
    code 1. *)
Theorem scenario_a_python_3_2_0 (h : Host) (w : World) :
  major (version_info h) = 3 ->
  minor (version_info h) = 2 ->
  micro (version_info h) = 0 ->
  is_nibble (serial (version_info h)) ->
  hexversion h = hexversion_of (version_info h) ->
  fst (check_python_version h w) = Exit 1 /\
  stdout_of (emitted (check_python_version h) w) =
    "Fatal error: At least Python 3.3 is required to run qutebrowser, but 3.2.0 is installed!"
    +:+ Py.nl /\
  Py.contains "3.2.0" (stdout_of (emitted (check_python_version h) w)) = true /\
  Py.contains "3.3" (stdout_of (emitted (check_python_version h) w)) = true /\
  Py.contains "3.3.0" (stdout_of (emitted (check_python_version h) w)) = false.
Proof.
  intros Hma Hmi Hmc Hse Hhex.
  assert (Hlow : hexversion h < 0x03030000).
  { rewrite Hhex. apply hexversion_of_below_minimum; unfold is_byte; try lia.
    assumption. }
  pose proof (check_python_version_low h w Hlow
                (str_format_support_3_2 _ Hma Hmi)) as Hrun.
  rewrite (emitted_app (check_python_version h) w _
             (f_equal (fun r => trace (snd r)) Hrun)).
  rewrite Hrun, Hma, Hmi, Hmc.
  repeat split; vm_compute; reflexivity.
Qed.

Lemma scenario_a_python_3_2_0_witness :
  fst (check_python_version host_py32 world0) = Exit 1 /\
  stdout_of (emitted (check_python_version host_py32) world0) =
    "Fatal error: At least Python 3.3 is required to run qutebrowser, but 3.2.0 is installed!"
    +:+ Py.nl /\
  Py.contains "3.2.0" (stdout_of (emitted (check_python_version host_py32) world0)) = true /\
  Py.contains "3.3" (stdout_of (emitted (check_python_version host_py32) world0)) = true /\
  Py.contains "3.3.0" (stdout_of (emitted (check_python_version host_py32) world0)) = false.
Proof.
  apply (scenario_a_python_3_2_0 host_py32 world0);
    try reflexivity; unfold is_nibble; simpl; lia.
Defined.

(** ** The harfbuzz patch *)

(** C4: on a platform whose name starts with [linux], [fix_harfbuzz] sets
    [QT_HARFBUZZ] to [old] and touches nothing else; on every other
    platform the world is unchanged.  So a variable that was not [old]
    before is [old] afterwards exactly on the linux family. *)
Theorem fix_harfbuzz_linux_only (h : Host) (w : World) :
  fst (fix_harfbuzz h w) = Ok tt /\
  (Py.startswith (platform h) "linux" = true ->
   snd (fix_harfbuzz h w) =
     {| environ := <["QT_HARFBUZZ" := "old"]> (environ w); trace := trace w |}) /\
  (Py.startswith (platform h) "linux" = false -> snd (fix_harfbuzz h w) = w) /\
  (environ w !! "QT_HARFBUZZ" ≠ Some "old" ->
   (environ (snd (fix_harfbuzz h w)) !! "QT_HARFBUZZ" = Some "old" <->
    Py.startswith (platform h) "linux" = true)).
Proof.
  unfold fix_harfbuzz.
  destruct (Py.startswith (platform h) "linux") eqn:Hp; run.
  - repeat split; try reflexivity; try discriminate.
    intros _. apply lookup_insert_eq.
  - repeat split; try reflexivity; try discriminate.
    intros Hold. contradiction.
Qed.

Lemma fix_harfbuzz_linux_only_witness :
  snd (fix_harfbuzz host_ok world0) =
    {| environ := <["QT_HARFBUZZ" := "old"]> (environ world0); trace := trace world0 |} /\
  snd (fix_harfbuzz host_win32 world_new_harfbuzz) = world_new_harfbuzz /\
  (environ (snd (fix_harfbuzz host_win32 world_new_harfbuzz)) !! "QT_HARFBUZZ" = Some "old" <->
   Py.startswith (platform host_win32) "linux" = true).
Proof.
  split; [|split].
  - apply (proj1 (proj2 (fix_harfbuzz_linux_only host_ok world0))). reflexivity.
  - apply (proj1 (proj2 (proj2 (fix_harfbuzz_linux_only host_win32 world_new_harfbuzz)))).
    reflexivity.
  - apply (proj2 (proj2 (proj2 (fix_harfbuzz_linux_only host_win32 world_new_harfbuzz)))).
    vm_compute. discriminate.
Defined.

(** C9: applying [fix_harfbuzz] twice gives the world of applying it once;
    on the linux family [QT_HARFBUZZ] is [old] afterwards whatever it was
    before, and every other variable keeps its value. *)
Theorem fix_harfbuzz_idempotent (h : Host) (w : World) :
  snd (fix_harfbuzz h (snd (fix_harfbuzz h w))) = snd (fix_harfbuzz h w) /\
  (Py.startswith (platform h) "linux" = true ->
   environ (snd (fix_harfbuzz h w)) !! "QT_HARFBUZZ" = Some "old" /\
   forall k, k ≠ "QT_HARFBUZZ" ->
     environ (snd (fix_harfbuzz h w)) !! k = environ w !! k).
Proof.
  unfold fix_harfbuzz.
  destruct (Py.startswith (platform h) "linux") eqn:Hp; run.
  - split.
    + rewrite insert_insert_eq. reflexivity.
    + intros _. split; [apply lookup_insert_eq|].
      intros k Hk. apply lookup_insert_ne. congruence.
  - split; [reflexivity | discriminate].
Qed.

Lemma fix_harfbuzz_idempotent_witness :
  environ (snd (fix_harfbuzz host_ok world_new_harfbuzz)) !! "QT_HARFBUZZ" = Some "old" /\
  forall k, k ≠ "QT_HARFBUZZ" ->
    environ (snd (fix_harfbuzz host_ok world_new_harfbuzz)) !! k =
    environ world_new_harfbuzz !! k.
Proof.
  apply (proj2 (fix_harfbuzz_idempotent host_ok world_new_harfbuzz)). reflexivity.
Defined.

(** ** The toolkit core gate *)

(** What [check_pyqt_core] does when the import of [PyQt5.QtCore] fails. *)
Lemma check_pyqt_core_missing (h : Host) (w : World) (fr msg : string) :
  missing h !! "PyQt5.QtCore" = Some (fr, msg) ->
  check_pyqt_core h w =
    (Exit 1,
     {| environ := environ w;
        trace := trace w ++
                 Print core_message ::
                 (if Py.mem "--debug" (argv h)
                  then [Print EmptyString; PrintExc (ImportError fr msg)]
                  else []) |}).
Proof.
  intros Hm. unfold check_pyqt_core. run. rewrite Hm. run.
  destruct (Py.mem "--debug" (argv h)); run;
    rewrite <- ?app_assoc; reflexivity.
Qed.

Lemma check_pyqt_core_present (h : Host) (w : World) :
  missing h !! "PyQt5.QtCore" = None -> check_pyqt_core h w = (Ok tt, w).
Proof. intros Hm. unfold check_pyqt_core. run. rewrite Hm. reflexivity. Qed.






(** ** The toolkit extension gate *)

(** What [check_pyqt_webkit] does when [PyQt5.QtWidgets] can be imported
    and [PyQt5.QtWebKit] cannot. *)
Lemma check_pyqt_webkit_missing (h : Host) (w : World) (fr msg : string) :
  missing h !! "PyQt5.QtWidgets" = None ->
  missing h !! "PyQt5.QtWebKit" = Some (fr, msg) ->
  check_pyqt_webkit h w =
    (Ok tt,
     {| environ := environ w;
        trace := trace w ++
                 [NewQApplication (argv h);
                  NewQMessageBox Critical "qutebrowser: Fatal error!" webkit_message] ++
                 (if Py.mem "--debug" (argv h)
                  then [Print EmptyString; PrintExc (ImportError fr msg)]
                  else []) ++
                 [MsgboxResizeSizeHint; MsgboxExec; AppQuit] |}).
Proof.
  intros Hw Hm. unfold check_pyqt_webkit. run. rewrite Hw. run. rewrite Hm. run.
  destruct (Py.mem "--debug" (argv h)); run;
    rewrite <- ?app_assoc; reflexivity.
Qed.

Lemma check_pyqt_webkit_present (h : Host) (w : World) :
  missing h !! "PyQt5.QtWidgets" = None ->
  missing h !! "PyQt5.QtWebKit" = None ->
  check_pyqt_webkit h w = (Ok tt, w).
Proof.
  intros Hw Hm. unfold check_pyqt_webkit. run. rewrite Hw. run. rewrite Hm.
  reflexivity.
Qed.

(** No path of [check_pyqt_webkit] reaches a [sys.exit]. *)
Lemma check_pyqt_webkit_never_exits (h : Host) (w : World) (code : Z) :
  fst (check_pyqt_webkit h w) <> Exit code.
Proof.
  unfold check_pyqt_webkit. run.
  destruct (missing h !! "PyQt5.QtWidgets") as [[fr msg]|]; run; [discriminate|].
  destruct (missing h !! "PyQt5.QtWebKit") as [[fr msg]|]; run; [|discriminate].
  destruct (Py.mem "--debug" (argv h)); run; discriminate.
Qed.

(** X10: when the interpreter is recent enough and the three PyQt5 modules
    can be imported, each of the three gates returns and changes nothing,
    whatever the arguments are: nothing is printed, no dialog is shown. *)
Lemma all_gates_pass (h : Host) (w : World) :
  0x03030000 <= hexversion h ->
  missing h !! "PyQt5.QtCore" = None ->
  missing h !! "PyQt5.QtWidgets" = None ->
  missing h !! "PyQt5.QtWebKit" = None ->
  check_python_version h w = (Ok tt, w) /\
  check_pyqt_core h w = (Ok tt, w) /\
  check_pyqt_webkit h w = (Ok tt, w).
Proof.
  intros Hv Hc Hw Hk. split; [|split].
  - apply check_python_version_high. assumption.
  - apply check_pyqt_core_present; assumption.
  - apply check_pyqt_webkit_present; assumption.
Qed.

(** C1 does not hold of the code: with QtWebKit missing and the rest of
    PyQt5 present, [check_pyqt_webkit] shows the critical dialog, quits the
    application object and returns to its caller; the process does not
    leave and no exit code is set. *)
Theorem check_pyqt_webkit_returns_after_dialog :
  check_pyqt_webkit host_no_webkit world0 =
    (Ok tt,
     {| environ := ∅;
        trace := [NewQApplication ["qutebrowser"];
                  NewQMessageBox Critical "qutebrowser: Fatal error!" webkit_message;
                  MsgboxResizeSizeHint; MsgboxExec; AppQuit] |}).
Proof.
  rewrite (check_pyqt_webkit_missing host_no_webkit world0
             (fst (no_module "PyQt5.QtWebKit")) (snd (no_module "PyQt5.QtWebKit")));
    reflexivity.
Qed.

(** C3 does not hold of the code: when their checks fail, the version gate
    and the core gate leave with exit code 1, and the extension gate
    returns without any exit code. *)
Theorem gates_exit_codes_differ :
  fst (check_python_version host_py32 world0) = Exit 1 /\
  fst (check_pyqt_core host_no_core world0) = Exit 1 /\
  fst (check_pyqt_webkit host_no_webkit_debug world0) = Ok tt /\
  fst (check_pyqt_webkit host_no_webkit_debug world0) <> Exit 1.
Proof. vm_compute. repeat split. discriminate. Qed.

(** ** The debug flag *)



(** ** The fault handler *)

(** With a [sys.stderr], line 58 returns before anything is enabled. *)
Lemma init_faulthandler_with_stderr (h : Host) (w : World) (s : stream) :
  has_SIGUSR1 h = true -> stderr h = Some s ->
  init_faulthandler h w = (Ok tt, w).
Proof.
  intros Hsig Herr. unfold init_faulthandler, import_SIGUSR1.
  rewrite Hsig, Herr. reflexivity.
Qed.

(** Without one, [faulthandler.enable()] is called, and raises. *)
Lemma init_faulthandler_without_stderr (h : Host) (w : World) :
  has_SIGUSR1 h = true -> stderr h = None ->
  init_faulthandler h w =
    (Raise NoStderrError,
     {| environ := environ w; trace := trace w ++ [FaulthandlerEnable] |}).
Proof.
  intros Hsig Herr. unfold init_faulthandler, import_SIGUSR1, faulthandler_enable.
  rewrite Hsig, Herr. reflexivity.
Qed.

(** Where [signal] has no [SIGUSR1], line 48 raises. *)
Lemma init_faulthandler_without_SIGUSR1 (h : Host) (w : World) :
  has_SIGUSR1 h = false ->
  init_faulthandler h w =
    (Raise (ImportError EmptyString "ImportError: cannot import name SIGUSR1"), w).
Proof.
  intros Hsig. unfold init_faulthandler, import_SIGUSR1.
  rewrite Hsig. reflexivity.
Qed.

(** The fault handler is never enabled with success, and
    [faulthandler.register] is never reached. *)
Lemma init_faulthandler_never_registers (h : Host) (w : World) (sig : signal_t) :
  FaulthandlerRegister sig ∉ emitted (init_faulthandler h) w.
Proof.
  destruct (has_SIGUSR1 h) eqn:Hsig.
  - destruct (stderr h) as [s|] eqn:Herr.
    + rewrite (emitted_app (init_faulthandler h) w []).
      * apply not_elem_of_nil.
      * rewrite (init_faulthandler_with_stderr h w s Hsig Herr).
        simpl. rewrite app_nil_r. reflexivity.
    + rewrite (emitted_app (init_faulthandler h) w [FaulthandlerEnable]).
      * intros H. apply list_elem_of_In in H. destruct H as [H|[]]. discriminate H.
      * rewrite (init_faulthandler_without_stderr h w Hsig Herr). reflexivity.
  - rewrite (emitted_app (init_faulthandler h) w []).
    + apply not_elem_of_nil.
    + rewrite (init_faulthandler_without_SIGUSR1 h w Hsig).
      simpl. rewrite app_nil_r. reflexivity.
Qed.

(** C2 does not hold of the code: started without a standard-error
    stream, [init_faulthandler] calls [faulthandler.enable()] and ends with
    the exception that call raises; started on a console it returns before
    enabling anything. *)
Theorem init_faulthandler_inverted_test :
  init_faulthandler host_no_stderr world0 =
    (Raise NoStderrError, {| environ := ∅; trace := [FaulthandlerEnable] |}) /\
  init_faulthandler host_ok world0 = (Ok tt, world0).
Proof. split; reflexivity. Qed.

(** ** Further properties of the five steps *)

Lemma prefix_length (p s : string) :
  String.prefix p s = true -> (String.length p <= String.length s)%nat.
Proof.
  intros H. apply (startswith_spec s p) in H. destruct H as [rest ->].
  induction p as [|c p IH]; [simpl; lia|].
  rewrite append_cons. simpl. lia.
Qed.

(** X1: on an interpreter whose [sys.hexversion] is the packing of its
    [sys.version_info], the version gate returns exactly when
    [(major, minor)] is at least [(3, 3)]; pre-releases of 3.3.0 pass. *)
Theorem check_python_version_returns_iff (h : Host) (w : World) :
  hexversion h = hexversion_of (version_info h) ->
  is_byte (minor (version_info h)) ->
  is_byte (micro (version_info h)) ->
  is_nibble (serial (version_info h)) ->
  fst (check_python_version h w) = Ok tt <->
  3 < major (version_info h) \/
  (major (version_info h) = 3 /\ 3 <= minor (version_info h)).
Proof.
  intros Hhex Hmi Hmc Hse.
  pose proof (hexversion_of_below_minimum (version_info h) Hmi Hmc Hse) as Hlow.
  rewrite <- Hhex in Hlow.
  destruct (Z.lt_ge_cases (hexversion h) 0x03030000) as [Hv|Hv].
  - split; [intros Hok; destruct (check_python_version_low_not_ok h w Hv Hok)|].
    apply Hlow in Hv. lia.
  - rewrite (check_python_version_high h w Hv). simpl.
    split; [|reflexivity].
    intros _. destruct (Z.lt_ge_cases (major (version_info h)) 3) as [Hma|Hma].
    + assert (hexversion h < 0x03030000) by (apply Hlow; lia). lia.
    + destruct (Z.eq_dec (major (version_info h)) 3) as [Heq|Hne]; [|lia].
      destruct (Z.lt_ge_cases (minor (version_info h)) 3) as [Hm|Hm]; [|lia].
      assert (hexversion h < 0x03030000) by (apply Hlow; lia). lia.
Qed.

Lemma check_python_version_returns_iff_witness :
  fst (check_python_version host_py33a1 world0) = Ok tt <->
  3 < major (version_info host_py33a1) \/
  (major (version_info host_py33a1) = 3 /\ 3 <= minor (version_info host_py33a1)).
Proof.
  apply (check_python_version_returns_iff host_py33a1 world0);
    [reflexivity | unfold is_byte; simpl; lia | unfold is_byte; simpl; lia
    | unfold is_nibble; simpl; lia].
Defined.

(** X2: below the minimum, on an interpreter whose [str.format] knows
    the [{}] field (2.7, 3.1 and later), the line the version gate prints
    contains the installed version, written [major.minor.micro]. *)
Theorem version_message_names_installed (h : Host) (w : World) :
  hexversion h < 0x03030000 ->
  str_format_support (version_info h) = AutoNumbered ->
  Py.contains
    (Py.join "." (map Py.str [major (version_info h); minor (version_info h);
                              micro (version_info h)]))
    (stdout_text h (emitted (check_python_version h) w)) = true.
Proof.
  intros Hv Hf. pose proof (check_python_version_low h w Hv Hf) as Hrun.
  rewrite (emitted_app (check_python_version h) w _
             (f_equal (fun r => trace (snd r)) Hrun)).
  cbn [stdout_text]. rewrite !append_assoc.
  apply contains_app_r, contains_prefix.
Qed.

Lemma version_message_names_installed_witness :
  Py.contains
    (Py.join "." (map Py.str [major (version_info host_py32);
                              minor (version_info host_py32);
                              micro (version_info host_py32)]))
    (stdout_text host_py32 (emitted (check_python_version host_py32) world0)) = true.
Proof.
  apply (version_message_names_installed host_py32 world0); reflexivity.
Defined.

(** X3: [os.environ] is written by [fix_harfbuzz] only: the four other
    steps leave it as it was on every path, and [fix_harfbuzz] makes no
    other call. *)
Theorem only_fix_harfbuzz_touches_environ (h : Host) (w : World) :
  environ (snd (check_python_version h w)) = environ w /\
  environ (snd (init_faulthandler h w)) = environ w /\
  environ (snd (check_pyqt_core h w)) = environ w /\
  environ (snd (check_pyqt_webkit h w)) = environ w /\
  trace (snd (fix_harfbuzz h w)) = trace w.
Proof.
  repeat split.
  - unfold check_python_version. run.
    destruct (hexversion h <? 0x03030000); [|reflexivity].
    destruct (str_format_support (version_info h)); reflexivity.
  - unfold init_faulthandler, import_SIGUSR1, faulthandler_enable.
    destruct (has_SIGUSR1 h); [|reflexivity].
    destruct (stderr h); reflexivity.
  - unfold check_pyqt_core. run.
    destruct (missing h !! "PyQt5.QtCore") as [[fr msg]|]; run; [|reflexivity].
    destruct (Py.mem "--debug" (argv h)); reflexivity.
  - unfold check_pyqt_webkit. run.
    destruct (missing h !! "PyQt5.QtWidgets") as [[fr msg]|]; run; [reflexivity|].
    destruct (missing h !! "PyQt5.QtWebKit") as [[fr msg]|]; run; [|reflexivity].
    destruct (Py.mem "--debug" (argv h)); reflexivity.
  - unfold fix_harfbuzz.
    destruct (Py.startswith (platform h) "linux"); reflexivity.
Qed.

(** X5: the import of [PyQt5.QtWidgets] on line 121 is outside the [try]:
    when it fails, [check_pyqt_webkit] ends with that [ImportError], having
    shown no dialog and printed nothing, whether or not QtWebKit is there
    and whatever the arguments are. *)
Theorem check_pyqt_webkit_without_widgets (h : Host) (w : World) (fr msg : string) :
  missing h !! "PyQt5.QtWidgets" = Some (fr, msg) ->
  check_pyqt_webkit h w = (Raise (ImportError fr msg), w) /\
  emitted (check_pyqt_webkit h) w = [].
Proof.
  intros Hw.
  assert (Hrun : check_pyqt_webkit h w = (Raise (ImportError fr msg), w)).
  { unfold check_pyqt_webkit. run. rewrite Hw. reflexivity. }
  split; [assumption|].
  apply emitted_app. rewrite Hrun. simpl. rewrite app_nil_r. reflexivity.
Qed.

Lemma check_pyqt_webkit_without_widgets_witness :
  check_pyqt_webkit host_no_widgets world0 =
    (Raise (ImportError (fst (no_module "PyQt5.QtWidgets"))
                        (snd (no_module "PyQt5.QtWidgets"))), world0) /\
  emitted (check_pyqt_webkit host_no_widgets) world0 = [].
Proof.
  apply (check_pyqt_webkit_without_widgets host_no_widgets world0). reflexivity.
Defined.





(** X8: [check_pyqt_core] returns to its caller exactly when
    [PyQt5.QtCore] can be imported, and then it has done nothing. *)
Theorem check_pyqt_core_returns_iff (h : Host) (w : World) :
  (fst (check_pyqt_core h w) = Ok tt <-> missing h !! "PyQt5.QtCore" = None) /\
  (fst (check_pyqt_core h w) = Ok tt -> snd (check_pyqt_core h w) = w).
Proof.
  destruct (missing h !! "PyQt5.QtCore") as [[fr msg]|] eqn:Hm.
  - rewrite (check_pyqt_core_missing h w fr msg Hm). simpl.
    split; [split|]; discriminate.
  - rewrite (check_pyqt_core_present h w Hm). simpl.
    split; [split|]; reflexivity.
Qed.

Lemma check_pyqt_core_returns_iff_witness :
  missing host_ok !! "PyQt5.QtCore" = None /\
  snd (check_pyqt_core host_ok world0) = world0.
Proof.
  assert (H : fst (check_pyqt_core host_ok world0) = Ok tt) by reflexivity.
  split.
  - apply (proj1 (proj1 (check_pyqt_core_returns_iff host_ok world0))). exact H.
  - apply (proj2 (check_pyqt_core_returns_iff host_ok world0)). exact H.
Defined.

(** X9: where the [signal] module has no [SIGUSR1], [init_faulthandler]
    ends with the [ImportError] of line 48 before it looks at [sys.stderr]:
    no call into [faulthandler] is made, with or without a stream. *)
Theorem init_faulthandler_needs_SIGUSR1 (h : Host) (w : World) :
  has_SIGUSR1 h = false ->
  (exists fr msg, fst (init_faulthandler h w) = Raise (ImportError fr msg)) /\
  snd (init_faulthandler h w) = w.
Proof.
  intros Hsig. unfold init_faulthandler, import_SIGUSR1. rewrite Hsig.
  split; [|reflexivity]. eexists _, _. reflexivity.
Qed.

Lemma init_faulthandler_needs_SIGUSR1_witness :
  (exists fr msg, fst (init_faulthandler host_win32 world0) = Raise (ImportError fr msg)) /\
  snd (init_faulthandler host_win32 world0) = world0.
Proof.
  apply (init_faulthandler_needs_SIGUSR1 host_win32 world0). reflexivity.
Defined.

Lemma all_gates_pass_witness :
  check_python_version host_ok world0 = (Ok tt, world0) /\
  check_pyqt_core host_ok world0 = (Ok tt, world0) /\
  check_pyqt_webkit host_ok world0 = (Ok tt, world0).
Proof.
  apply (all_gates_pass host_ok world0); [vm_compute; discriminate | reflexivity ..].
Defined.

(** X11: a platform name shorter than five characters, the empty name
    included, is not in the linux family: [fix_harfbuzz] returns and the
    world is unchanged. *)
Theorem fix_harfbuzz_short_platform (h : Host) (w : World) :
  (String.length (platform h) < 5)%nat ->
  fix_harfbuzz h w = (Ok tt, w).
Proof.
  intros Hlen. unfold fix_harfbuzz.
  destruct (Py.startswith (platform h) "linux") eqn:Hp; [|reflexivity].
  apply prefix_length in Hp. simpl in Hp. lia.
Qed.

Lemma fix_harfbuzz_short_platform_witness :
  fix_harfbuzz host_aix world_new_harfbuzz = (Ok tt, world_new_harfbuzz).
Proof.
  apply (fix_harfbuzz_short_platform host_aix world_new_harfbuzz).
  simpl. lia.
Defined.


